(** * DatumEither: a refreshable value that can fail

    A shallow embedding of [src/DatumEither.ts].  A [DatumEither E A] is a
    [Datum (Either E A)]: one of [Initial], [Pending], [Refresh (Left e)],
    [Refresh (Right a)], [Replete (Left e)], [Replete (Right a)].

    The file imports its two building blocks, [Either] from fp-ts and [Datum]
    from [./Datum]; the parts of them that [DatumEither.ts] calls are given
    first, each in a module of its own. *)

From Stdlib Require Import Bool ZArith String.
From ExtLib Require Import Structures.Functor Structures.Monad.
From ExtLib Require Import Data.Monads.StateMonad.

Set Implicit Arguments.
Local Open Scope Z_scope.
Local Open Scope string_scope.

(** ** fp-ts [Either] *)

Module Either.

(** Modelled from the spec: fp-ts's [Either] (the binary Outcome, a
    dependency whose source is not part of the repository): a closed sum
    of [Left e] (Failure) and [Right a] (Success), with the constructors
    [left], [right] and the tag tests [isLeft], [isRight]. *)
Inductive Either (E A : Type) : Type :=
| Left (e : E)
| Right (a : A).

Arguments Left {E A} e.
Arguments Right {E A} a.

(** Modelled from the spec: fp-ts's constructors [left(e)] and [right(a)]. *)
Definition left {E A} (e : E) : Either E A := Left e.
Definition right {E A} (a : A) : Either E A := Right a.

(** Modelled from the spec: fp-ts's tag tests [isLeft] and [isRight]. *)
Definition isLeft {E A} (ma : Either E A) : bool :=
  match ma with Left _ => true | Right _ => false end.

Definition isRight {E A} (ma : Either E A) : bool :=
  match ma with Left _ => false | Right _ => true end.

(** Modelled from the spec: fp-ts's [Either.map], the outcome's own
    transformer: a Success payload is transformed, a Failure payload is
    left untouched. *)
Definition map {E A B} (f : A -> B) (ma : Either E A) : Either E B :=
  match ma with Left e => Left e | Right a => Right (f a) end.

(** Modelled from the spec: fp-ts's [Either.fromOption]: an absent option
    is the Failure of [onNone ()], a present one the Success of its
    value. *)
Definition fromOption {E A} (onNone : unit -> E) (o : option A) : Either E A :=
  match o with None => left (onNone tt) | Some a => right a end.

End Either.

(** ** [./Datum] *)

Module Datum.

(** Modelled from the spec: [./Datum] (the four-state Lifecycle, not among
    the sources): the tags [Initial] (NotRequested), [Pending] (Loading),
    [Refresh x] (Refreshing) and [Replete x] (Settled), the constructors
    [initial], [pending], [refresh], [replete], the predicate [isValued]
    and the total eliminator [fold]. *)
Inductive Datum (A : Type) : Type :=
| Initial
| Pending
| Refresh (value : A)
| Replete (value : A).

Arguments Initial {A}.
Arguments Pending {A}.
Arguments Refresh {A} value.
Arguments Replete {A} value.

(** Modelled from the spec: [./Datum]'s constructors, one for each tag. *)
Definition initial {A} : Datum A := Initial.
Definition pending {A} : Datum A := Pending.
Definition refresh {A} (value : A) : Datum A := Refresh value.
Definition replete {A} (value : A) : Datum A := Replete value.

(** Modelled from the spec: [./Datum]'s [isValued], true iff the tag is
    [Refresh] or [Replete]. *)
Definition isValued {A} (ma : Datum A) : bool :=
  match ma with
  | Initial | Pending => false
  | Refresh _ | Replete _ => true
  end.

(** Modelled from the spec: the field [ma.value], which the two valued
    tags carry and the two others do not. *)
Definition value {A} (ma : Datum A) : option A :=
  match ma with
  | Initial | Pending => None
  | Refresh v | Replete v => Some v
  end.

(** Modelled from the spec: [./Datum]'s total eliminator
    [fold(onInitial, onPending, onRefresh, onReplete)(ma)]: the two
    payload-free handlers are thunks, the two others receive the
    payload. *)
Definition fold {A B} (onInitial onPending : unit -> B)
    (onRefresh onReplete : A -> B) (ma : Datum A) : B :=
  match ma with
  | Initial => onInitial tt
  | Pending => onPending tt
  | Refresh v => onRefresh v
  | Replete v => onReplete v
  end.

(** Modelled from the spec: the lifecycle's own transformer ([datum.map],
    not among the sources): a four-way dispatch on the tag that keeps the
    tag and transforms the payload, when there is one. *)
Definition map {A B} (f : A -> B) (ma : Datum A) : Datum B :=
  match ma with
  | Initial => Initial
  | Pending => Pending
  | Refresh v => Refresh (f v)
  | Replete v => Replete (f v)
  end.

(** Modelled from the spec: [datum.of] ([of_] here: [of] is a keyword),
    the unit of [./Datum]'s monad instance (not among the sources): a
    settled value, as [success] is the unit one level up. *)
Definition of_ {A} (a : A) : Datum A := replete a.

(** Modelled from the spec: [datum.chain(ma, f)] of [./Datum]'s monad
    instance (not among the sources): a value without payload is returned
    as it is; a payload is passed to [f], whose result replaces the
    original entirely: no tag is carried over. *)
Definition chain {A B} (ma : Datum A) (f : A -> Datum B) : Datum B :=
  match ma with
  | Initial => Initial
  | Pending => Pending
  | Refresh v => f v
  | Replete v => f v
  end.

(** Modelled from the spec: the same [datum.chain(ma, f)] for a
    continuation that acts on the world when it is called, in a monad [m]
    of effects: [f] is called on a payload, and not at all when there is
    none. *)
Definition chainM {m : Type -> Type} {M : Monad m} {A B}
    (ma : Datum A) (f : A -> m (Datum B)) : m (Datum B) :=
  match ma with
  | Initial => ret Initial
  | Pending => ret Pending
  | Refresh v => f v
  | Replete v => f v
  end.

End Datum.

Import Either Datum.

(** ** [DatumEither.ts] *)

(** [type DatumEither<E, A> = Datum<Either<E, A>>] *)
Definition DatumEither (E A : Type) : Type := Datum (Either E A).

(** [success = a => replete(right(a))] *)
Definition success {E A} (a : A) : DatumEither E A := replete (right a).

(** [failure = e => replete(left(e))] *)
Definition failure {E A} (e : E) : DatumEither E A := replete (left e).

(** [initial: DatumEither<never, never> = initialD]: usable at every [E], [A]. *)
Definition initial {E A} : DatumEither E A := Datum.initial.

(** [pending: DatumEither<never, never> = pendingD] *)
Definition pending {E A} : DatumEither E A := Datum.pending.

(** [constInitial = () => initial] *)
Definition constInitial {E D} : unit -> DatumEither E D := fun _ => initial.

(** [constPending = () => pending] *)
Definition constPending {E D} : unit -> DatumEither E D := fun _ => pending.

(** [isSuccess = fea => isValued(fea) && isRight(fea.value)].  The field is
    read only behind [isValued]: the [None] branch stands for a read that
    [&&] never makes. *)
Definition isSuccess {E A} (fea : DatumEither E A) : bool :=
  isValued fea && match value fea with Some e => isRight e | None => false end.

(** [isFailure = fea => isValued(fea) && isLeft(fea.value)] *)
Definition isFailure {E A} (fea : DatumEither E A) : bool :=
  isValued fea && match value fea with Some e => isLeft e | None => false end.

(** [toRefresh = fea =>
       fold(constPending, constPending, () => fea, a => refresh(a))(fea)] *)
Definition toRefresh {E A} (fea : DatumEither E A) : DatumEither E A :=
  fold constPending constPending (fun _ => fea) (fun a => refresh a) fea.

(** [fromEither = e => replete(e())] *)
Definition fromEither {E A} (e : unit -> Either E A) : DatumEither E A :=
  replete (e tt).

(** [fromOption = onNone => o => replete(eitherFromOption(onNone)(o))] *)
Definition fromOption {E A} (onNone : unit -> E) (o : option A) : DatumEither E A :=
  replete (Either.fromOption onNone o).

(** A value of type [A | null | undefined]: [JsValue a] is a value that is
    neither [null] nor [undefined]. *)
Inductive Nullable (A : Type) : Type :=
| JsNull
| JsUndefined
| JsValue (a : A).

Arguments JsNull {A}.
Arguments JsUndefined {A}.
Arguments JsValue {A} a.

(** [fromNullable = a =>
       a === null || a === undefined ? initial : success(a)] *)
Definition fromNullable {E A} (a : Nullable A) : DatumEither E A :=
  match a with
  | JsNull => initial
  | JsUndefined => initial
  | JsValue v => success v
  end.

(** [refreshFold(onInitial, onPending, onFailure, onSuccess)(fea)].  The
    handlers' second parameter is [r?: boolean]: an [option bool], [None]
    when the caller leaves it out. *)
Definition refreshFold {E A B} (onInitial onPending : unit -> B)
    (onFailure : E -> option bool -> B) (onSuccess : A -> option bool -> B)
    (fea : DatumEither E A) : B :=
  fold onInitial onPending
    (fun e => match e with
              | Right a => onSuccess a (Some true)
              | Left l => onFailure l (Some true)
              end)
    (fun e => match e with
              | Right a => onSuccess a (Some false)
              | Left l => onFailure l (Some false)
              end)
    fea.

(** [squash(onNone, onFailure, onSuccess)(fea)] *)
Definition squash {E A B} (onNone : option bool -> B)
    (onFailure : E -> option bool -> B) (onSuccess : A -> option bool -> B)
    (fea : DatumEither E A) : B :=
  fold (fun _ => onNone (Some false)) (fun _ => onNone (Some true))
    (fun e => match e with
              | Right a => onSuccess a (Some true)
              | Left l => onFailure l (Some true)
              end)
    (fun e => match e with
              | Right a => onSuccess a (Some false)
              | Left l => onFailure l (Some false)
              end)
    fea.

(** ** The monad instance and the pipeable transformers *)

(** Modelled from the spec: [datumEither.map], a field of
    [getEitherM(datum)] (fp-ts's [EitherT] over [./Datum]'s monad instance;
    neither is among the sources).  It delegates to the lifecycle's own
    transformer for the tag and to the outcome's own transformer for the
    payload. *)
Definition datumEither_map {E A B} (fa : DatumEither E A) (f : A -> B)
  : DatumEither E B :=
  Datum.map (Either.map f) fa.

(** [datumEither.of], a field of [getEitherM(datum)]: fp-ts's [EitherT]
    (a dependency, not among the sources) has [of: a => M.of(right(a))]. *)
Definition datumEither_of {E A} (a : A) : DatumEither E A :=
  Datum.of_ (right a).

(** [datumEither.chain], a field of [getEitherM(datum)]: fp-ts's [EitherT]
    has
    [chain: (ma, f) =>
       M.chain(ma, e => isLeft(e) ? M.of(left(e.left)) : f(e.right))],
    here at [M = datum]. *)
Definition datumEither_chain {E A B} (fa : DatumEither E A)
    (f : A -> DatumEither E B) : DatumEither E B :=
  Datum.chain fa
    (fun e => match e with
              | Left l => Datum.of_ (left l)
              | Right a => f a
              end).

(** [datumEither.alt], a field of [getEitherM(datum)]: fp-ts's [EitherT]
    has
    [alt: (fx, f) => M.chain(fx, e => isLeft(e) ? f() : A.of(e.right))],
    here at [M = datum].  The thunk [that: Lazy<DatumEither<E, A>>] may act
    on the world [W] when it is called, so it is a computation of the state
    monad over [W], and so is the call of [alt]: running [that] is calling
    the thunk. *)
Definition datumEither_alt {W E A} (fx : DatumEither E A)
    (that : state W (DatumEither E A)) : state W (DatumEither E A) :=
  Datum.chainM fx
    (fun e => match e with
              | Left _ => that
              | Right a => ret (datumEither_of a)
              end).

(** [datumEither: Monad2<URI> & EitherM1<DatumURI>], with [success] as its
    unit ([of]). *)
#[global] Instance Functor_datumEither {E} : Functor (DatumEither E) :=
  {| fmap := fun _ _ f fa => datumEither_map fa f |}.

#[global] Instance datumEither {E} : Monad (DatumEither E) :=
  {| ret := fun _ a => success a;
     bind := fun _ _ fa f => datumEither_chain fa f |}.

(** [const { alt, chain, map, ... } = pipeable(datumEither)]: the curried,
    data-last forms of the instance's operations. *)
Definition map {E A B} (f : A -> B) (fa : DatumEither E A) : DatumEither E B :=
  fmap f fa.

Definition chain {E A B} (f : A -> DatumEither E B) (fa : DatumEither E A)
  : DatumEither E B :=
  bind fa f.

Definition alt {W E A} (that : state W (DatumEither E A))
    (fa : DatumEither E A) : state W (DatumEither E A) :=
  datumEither_alt fa that.

(** A thunk that counts its own calls: a call adds one to the counter of
    the world and returns [v]. *)
Definition counting {T} (v : T) : state nat T :=
  mkState (fun n => (v, S n)).

(** The handlers of the spec's scenarios for [refreshFold] and [squash]:
    a template string ending in the flag. *)
Definition showFlag (r : option bool) : string :=
  match r with
  | Some true => "true"
  | Some false => "false"
  | None => "undefined"
  end.

Definition tagged (tag payload : string) (r : option bool) : string :=
  tag ++ ":" ++ payload ++ ":" ++ showFlag r.

Definition taggedNone (r : option bool) : string :=
  "none:" ++ showFlag r.

(** The function chained in the spec's scenario:
    [a => a > 0 ? success(a * 2) : pending]. *)
Definition doubleIfPositive (a : Z) : DatumEither string Z :=
  if a >? 0 then success (a * 2) else pending.

(** Handlers that rebuild a value from what an eliminator hands them.  The
    flag is read as JavaScript reads [r ? ... : ...]: an absent flag is
    falsy. *)
Definition truthy (r : option bool) : bool :=
  match r with
  | Some true => true
  | Some false | None => false
  end.

Definition rebuildNone {E A} (r : option bool) : DatumEither E A :=
  if truthy r then pending else initial.

Definition rebuildFailure {E A} (e : E) (r : option bool) : DatumEither E A :=
  if truthy r then refresh (left e) else replete (left e).

Definition rebuildSuccess {E A} (a : A) (r : option bool) : DatumEither E A :=
  if truthy r then refresh (right a) else replete (right a).

(** The way back from a [DatumEither] to [A | null]: only a settled or
    refreshing Success has a value to show. *)
Definition toNullable {E A} (fea : DatumEither E A) : Nullable A :=
  squash (fun _ => JsNull) (fun _ _ => JsNull) (fun a _ => JsValue a) fea.

(** * Properties *)

(** ** Shapes *)

(** A [DatumEither] has one of six shapes. *)
Lemma six_shapes {E A} (fea : DatumEither E A) :
  fea = initial \/ fea = pending
  \/ (exists e, fea = refresh (left e)) \/ (exists a, fea = refresh (right a))
  \/ (exists e, fea = replete (left e)) \/ (exists a, fea = replete (right a)).
Proof.
  destruct fea as [ | | [e|a] | [e|a] ]; eauto 10.
Qed.

(** [isValued] holds exactly on the tags [Refresh] and [Replete]. *)
Lemma isValued_iff {A} (ma : Datum A) :
  isValued ma = true <-> exists v, ma = refresh v \/ ma = replete v.
Proof.
  split.
  - destruct ma as [ | | v | v]; simpl; try discriminate; eauto.
  - intros [v [-> | ->]]; reflexivity.
Qed.

Ltac by_shape fea :=
  destruct fea as [ | | [?|?] | [?|?] ]; try reflexivity.

(** ** The predicates *)

Lemma isSuccess_iff {E A} (fea : DatumEither E A) :
  isSuccess fea = true
  <-> exists a, fea = refresh (right a) \/ fea = replete (right a).
Proof.
  split.
  - destruct fea as [ | | [e|a] | [e|a] ]; simpl; try discriminate; eauto.
  - intros [a [-> | ->]]; reflexivity.
Qed.

Lemma isFailure_iff {E A} (fea : DatumEither E A) :
  isFailure fea = true
  <-> exists e, fea = refresh (left e) \/ fea = replete (left e).
Proof.
  split.
  - destruct fea as [ | | [e|a] | [e|a] ]; simpl; try discriminate; eauto.
  - intros [e [-> | ->]]; reflexivity.
Qed.

(** Both predicates are inhabited: the theorem below is not about an empty
    class of values. *)
Example isSuccess_success : isSuccess (success 1 : DatumEither string Z) = true.
Proof. reflexivity. Qed.

Example isFailure_refresh_left :
  isFailure (refresh (left "e") : DatumEither string Z) = true.
Proof. reflexivity. Qed.

(** C9: [isSuccess] and [isFailure] are never both true of one value, and
    each of them implies [isValued] (the tag is [Refresh] or [Replete]). *)
Theorem isSuccess_isFailure_exclusive {E A} (fea : DatumEither E A) :
  isSuccess fea && isFailure fea = false
  /\ (isSuccess fea = true -> isValued fea = true)
  /\ (isFailure fea = true -> isValued fea = true).
Proof.
  unfold isSuccess, isFailure.
  destruct (isValued fea) eqn:Hv; simpl.
  - destruct (value fea) as [[e|a]|]; simpl; auto.
  - repeat split; discriminate.
Qed.

(** ** toRefresh *)

Lemma toRefresh_initial {E A} : toRefresh (@initial E A) = pending.
Proof. reflexivity. Qed.

Lemma toRefresh_pending {E A} : toRefresh (@pending E A) = pending.
Proof. reflexivity. Qed.

Lemma toRefresh_refresh {E A} (o : Either E A) :
  toRefresh (refresh o) = refresh o.
Proof. reflexivity. Qed.

Lemma toRefresh_replete {E A} (o : Either E A) :
  toRefresh (replete o) = refresh o.
Proof. reflexivity. Qed.

(** C1, as the code has it: [toRefresh] maps [Replete o] to [Refresh o]
    with the same outcome, is the identity on [Refresh] values and on
    [Pending], and maps [Initial] to [Pending]. *)
Theorem toRefresh_cases {E A} :
  (forall o : Either E A, toRefresh (replete o) = refresh o)
  /\ (forall o : Either E A, toRefresh (refresh o) = refresh o)
  /\ toRefresh (@pending E A) = pending
  /\ toRefresh (@initial E A) = pending.
Proof.
  repeat split; intros; reflexivity.
Qed.

(** C1, as stated, fails at [Initial]: [toRefresh initial] is [pending],
    which is not [initial]. *)
Lemma toRefresh_initial_not_identity :
  toRefresh (initial : DatumEither string Z) <> initial.
Proof.
  rewrite toRefresh_initial. discriminate.
Qed.

(** C5: [toRefresh] is idempotent. *)
Theorem toRefresh_idempotent {E A} (fea : DatumEither E A) :
  toRefresh (toRefresh fea) = toRefresh fea.
Proof.
  destruct fea as [ | | o | o].
  - change (toRefresh (toRefresh (@initial E A)) = toRefresh initial).
    rewrite toRefresh_initial. apply toRefresh_pending.
  - change (toRefresh (toRefresh (@pending E A)) = toRefresh pending).
    rewrite toRefresh_pending. apply toRefresh_pending.
  - change (toRefresh (toRefresh (refresh o)) = toRefresh (refresh o)).
    rewrite toRefresh_refresh. apply toRefresh_refresh.
  - change (toRefresh (toRefresh (replete o)) = toRefresh (replete o)).
    rewrite toRefresh_replete. apply toRefresh_refresh.
Qed.

(** C10: [toRefresh] sends [Initial] to [Pending], as it does [Pending];
    so no result of [toRefresh] is [Initial]: it is [Pending] or a
    [Refresh]. *)
Theorem toRefresh_never_initial {E A} (fea : DatumEither E A) :
  toRefresh (@initial E A) = pending
  /\ toRefresh (@initial E A) = toRefresh pending
  /\ toRefresh fea <> initial
  /\ (toRefresh fea = pending \/ exists o, toRefresh fea = refresh o).
Proof.
  split; [reflexivity | split; [reflexivity | ]].
  destruct fea as [ | | o | o]; simpl; split;
    solve [ discriminate | left; reflexivity | right; exists o; reflexivity ].
Qed.

(** ** fromNullable *)

(** C8: [fromNullable] maps [null] and [undefined] to [Initial], which is
    neither [Pending] nor a Failure, and a present value [a] to
    [Replete (Right a)]. *)
Theorem fromNullable_spec {E A} :
  fromNullable JsNull = (initial : DatumEither E A)
  /\ fromNullable JsUndefined = (initial : DatumEither E A)
  /\ fromNullable JsNull <> (pending : DatumEither E A)
  /\ fromNullable JsUndefined <> (pending : DatumEither E A)
  /\ isFailure (fromNullable JsNull : DatumEither E A) = false
  /\ isFailure (fromNullable JsUndefined : DatumEither E A) = false
  /\ (forall a : A, fromNullable (JsValue a) = (replete (right a) : DatumEither E A)).
Proof.
  repeat split; simpl; try discriminate.
Qed.

(** A falsy value is still a present value: [0] and the empty string are
    successes. *)
Example fromNullable_zero :
  fromNullable (JsValue 0) = (success 0 : DatumEither string Z).
Proof. reflexivity. Qed.

Example fromNullable_empty_string :
  fromNullable (JsValue "") = (success "" : DatumEither string string).
Proof. reflexivity. Qed.

(** ** refreshFold and squash *)

Section Eliminators.

Variables E A B : Type.
Variables onInitial onPending : unit -> B.
Variable onNone : option bool -> B.
Variable onFailure : E -> option bool -> B.
Variable onSuccess : A -> option bool -> B.

Lemma refreshFold_unvalued :
  refreshFold onInitial onPending onFailure onSuccess initial = onInitial tt
  /\ refreshFold onInitial onPending onFailure onSuccess pending = onPending tt.
Proof. split; reflexivity. Qed.

(** [squash] is [refreshFold] with the two payload-free handlers taken
    from [onNone]. *)
Lemma squash_as_refreshFold (fea : DatumEither E A) :
  squash onNone onFailure onSuccess fea
  = refreshFold (fun _ => onNone (Some false)) (fun _ => onNone (Some true))
      onFailure onSuccess fea.
Proof. reflexivity. Qed.

(** C7: [refreshFold] and [squash] both pass [true] to the failure or
    success handler for a [Refresh] value and [false] for a [Replete]
    value; [squash] sends [Initial] and [Pending] to [onNone], with
    [false] for [Initial] and [true] for [Pending]. *)
Theorem refreshFold_squash_flag :
  (forall e, refreshFold onInitial onPending onFailure onSuccess (refresh (left e))
             = onFailure e (Some true))
  /\ (forall a, refreshFold onInitial onPending onFailure onSuccess (refresh (right a))
                = onSuccess a (Some true))
  /\ (forall e, refreshFold onInitial onPending onFailure onSuccess (replete (left e))
                = onFailure e (Some false))
  /\ (forall a, refreshFold onInitial onPending onFailure onSuccess (replete (right a))
                = onSuccess a (Some false))
  /\ (forall e, squash onNone onFailure onSuccess (refresh (left e))
                = onFailure e (Some true))
  /\ (forall a, squash onNone onFailure onSuccess (refresh (right a))
                = onSuccess a (Some true))
  /\ (forall e, squash onNone onFailure onSuccess (replete (left e))
                = onFailure e (Some false))
  /\ (forall a, squash onNone onFailure onSuccess (replete (right a))
                = onSuccess a (Some false))
  /\ squash onNone onFailure onSuccess initial = onNone (Some false)
  /\ squash onNone onFailure onSuccess pending = onNone (Some true).
Proof.
  repeat match goal with |- _ /\ _ => split end; intros; reflexivity.
Qed.

End Eliminators.

(** The spec's scenarios 3 and 4. *)
Example refreshFold_scenario :
  refreshFold (fun _ => "none") (fun _ => "loading") (tagged "fail") (tagged "ok")
    (refresh (right "7") : DatumEither string string)
  = "ok:7:true".
Proof. reflexivity. Qed.

Example squash_scenario :
  squash taggedNone (tagged "fail") (tagged "ok")
    (pending : DatumEither string string) = "none:true"
  /\ squash taggedNone (tagged "fail") (tagged "ok")
       (initial : DatumEither string string) = "none:false".
Proof. split; reflexivity. Qed.

(** ** map *)

Section Map.

Variables E A B : Type.
Variable f : A -> B.

Lemma map_unfold (fa : DatumEither E A) :
  map f fa = Datum.map (Either.map f) fa.
Proof. reflexivity. Qed.

(** [map] never changes the tag. *)
Lemma map_keeps_tag (fa : DatumEither E A) :
  fold (fun _ => 0%nat) (fun _ => 1%nat) (fun _ => 2%nat) (fun _ => 3%nat) (map f fa)
  = fold (fun _ => 0%nat) (fun _ => 1%nat) (fun _ => 2%nat) (fun _ => 3%nat) fa.
Proof. rewrite map_unfold. destruct fa; reflexivity. Qed.

Lemma map_isSuccess (fa : DatumEither E A) :
  isSuccess (map f fa) = isSuccess fa.
Proof. by_shape fa. Qed.

End Map.

(** C6: [map f] leaves [Initial] and [Pending] unchanged, keeps the tag of
    [Refresh] and [Replete] values, transforms a Success payload by [f] and
    leaves a Failure payload untouched; adding one maps [success 4] to
    [success 5] and leaves [failure "e"] as it is. *)
Theorem map_spec {E A B} (f : A -> B) :
  map f (initial : DatumEither E A) = initial
  /\ map f (pending : DatumEither E A) = pending
  /\ (forall a, map f (refresh (right a) : DatumEither E A) = refresh (right (f a)))
  /\ (forall e, map f (refresh (left e) : DatumEither E A) = refresh (left e))
  /\ (forall a, map f (replete (right a) : DatumEither E A) = replete (right (f a)))
  /\ (forall e, map f (replete (left e) : DatumEither E A) = replete (left e))
  /\ map (fun x => x + 1) (replete (right 4) : DatumEither string Z) = replete (right 5)
  /\ map (fun x => x + 1) (replete (left "e") : DatumEither string Z) = replete (left "e").
Proof.
  repeat match goal with |- _ /\ _ => split end;
    intros; rewrite map_unfold; reflexivity.
Qed.

(** ** chain *)

Section Chain.

Variables E A B : Type.
Variable f : A -> DatumEither E B.

Lemma chain_unfold (fa : DatumEither E A) :
  chain f fa = datumEither_chain fa f.
Proof. reflexivity. Qed.

Lemma chain_initial : chain f initial = initial.
Proof. reflexivity. Qed.

Lemma chain_pending : chain f pending = pending.
Proof. reflexivity. Qed.

Lemma chain_refresh_left e : chain f (refresh (left e)) = replete (left e).
Proof. reflexivity. Qed.

Lemma chain_replete_left e : chain f (replete (left e)) = replete (left e).
Proof. reflexivity. Qed.

Lemma chain_refresh_right a : chain f (refresh (right a)) = f a.
Proof. reflexivity. Qed.

Lemma chain_replete_right a : chain f (replete (right a)) = f a.
Proof. reflexivity. Qed.

(** A Failure is answered without [f], and settled, whatever its tag. *)
Lemma chain_failure_payload (fa : DatumEither E A) (e : E) :
  value fa = Some (left e) -> chain f fa = failure e.
Proof.
  destruct fa as [ | | o | o]; simpl; intros H;
    first [ discriminate H | injection H as -> ]; reflexivity.
Qed.

(** A Success hands its payload to [f], whatever its tag. *)
Lemma chain_success_payload (fa : DatumEither E A) (a : A) :
  value fa = Some (right a) -> chain f fa = f a.
Proof.
  destruct fa as [ | | o | o]; simpl; intros H;
    first [ discriminate H | injection H as -> ]; reflexivity.
Qed.

End Chain.

Example chain_doubleIfPositive_3 :
  chain doubleIfPositive (replete (right 3)) = replete (right 6).
Proof. reflexivity. Qed.

Example chain_doubleIfPositive_minus_1 :
  chain doubleIfPositive (replete (right (-1))) = pending.
Proof. reflexivity. Qed.

(** C2, as the composition has it: [chain f] leaves [Initial] and
    [Pending] unchanged; a Failure payload short-circuits with the payload
    unchanged and the result settled: [Replete (Left e)], whether the
    receiver was a [Refresh] or a [Replete]; a Success payload is passed to
    [f], whose result replaces the original entirely.  Chaining [success 3]
    into [doubleIfPositive] gives [success 6], and [success (-1)] gives
    [pending]. *)
Theorem chain_spec {E A B} (f : A -> DatumEither E B) :
  chain f initial = initial
  /\ chain f pending = pending
  /\ (forall e, chain f (refresh (left e)) = replete (left e))
  /\ (forall e, chain f (replete (left e)) = replete (left e))
  /\ (forall a, chain f (refresh (right a)) = f a)
  /\ (forall a, chain f (replete (right a)) = f a)
  /\ chain doubleIfPositive (replete (right 3)) = replete (right 6)
  /\ chain doubleIfPositive (replete (right (-1))) = pending.
Proof.
  split; [apply chain_initial | ].
  split; [apply chain_pending | ].
  split; [intro e; apply chain_refresh_left | ].
  split; [intro e; apply chain_replete_left | ].
  split; [intro a; apply chain_refresh_right | ].
  split; [intro a; apply chain_replete_right | ].
  split; vm_compute; reflexivity.
Qed.

(** C2, as stated, fails at a refreshing Failure: [chain] answers
    [Replete (Left "e")], so the tag [Refresh] is not kept. *)
Lemma chain_refresh_left_not_kept :
  chain doubleIfPositive (refresh (left "e")) <> refresh (left "e").
Proof.
  rewrite chain_refresh_left. discriminate.
Qed.

(** ** alt *)

(** A continuation without effects makes [chainM] the plain [chain]. *)
Lemma chainM_ret {W A B} (ma : Datum A) (f : A -> Datum B) :
  Datum.chainM ma (fun v => ret (f v) : state W (Datum B))
  = ret (Datum.chain ma f).
Proof. destruct ma; reflexivity. Qed.

Lemma datumEither_of_success {E A} (a : A) :
  datumEither_of a = (success a : DatumEither E A).
Proof. reflexivity. Qed.

Section Alt.

Variables W E A : Type.
Variable that : state W (DatumEither E A).

(** On a Failure the call of [alt] is one call of the thunk. *)
Lemma alt_failure (fa : DatumEither E A) :
  isFailure fa = true -> alt that fa = that.
Proof.
  destruct fa as [ | | [e|a] | [e|a] ]; simpl; intros H;
    first [ discriminate H | reflexivity ].
Qed.

(** On anything else the thunk is not called: the world is as it was, and
    the answer is the receiver, settled if it was a refreshing Success. *)
Lemma alt_not_failure (fa : DatumEither E A) (w : W) :
  isFailure fa = false ->
  runState (alt that fa) w
  = (match fa with Refresh (Right a) => replete (right a) | _ => fa end, w).
Proof.
  destruct fa as [ | | [e|a] | [e|a] ]; simpl; intros H;
    first [ discriminate H | reflexivity ].
Qed.

End Alt.

(** With a thunk that counts its calls: one on a Failure, none otherwise. *)
Lemma alt_counting {E A} (t fa : DatumEither E A) (n : nat) :
  runState (alt (counting t) fa) n
  = if isFailure fa
    then (t, S n)
    else (match fa with Refresh (Right a) => replete (right a) | _ => fa end, n).
Proof.
  destruct (isFailure fa) eqn:Hf.
  - now rewrite alt_failure.
  - now apply alt_not_failure.
Qed.

Example alt_counting_initial :
  runState (alt (counting (success 1 : DatumEither string Z)) initial) 0%nat
  = (initial, 0%nat).
Proof. reflexivity. Qed.

Example alt_counting_success :
  runState (alt (counting (pending : DatumEither string Z)) (refresh (right 2))) 0%nat
  = (replete (right 2), 0%nat).
Proof. reflexivity. Qed.

Example alt_counting_failure :
  runState (alt (counting (success 1 : DatumEither string Z)) (refresh (left "e"))) 0%nat
  = (success 1, 1%nat).
Proof. reflexivity. Qed.

(** C3, as the composition has it: [alt that] is one call of [that], whose
    result it returns, exactly when the receiver carries a Failure.
    Otherwise [that] is not called: [Initial], [Pending] and a settled
    Success are returned as they are, and a refreshing Success is returned
    settled.  Seen through a thunk that counts its calls: exactly one on a
    Failure, none otherwise. *)
Theorem alt_spec {W E A} (that : state W (DatumEither E A)) :
  (forall e, alt that (refresh (left e)) = that)
  /\ (forall e, alt that (replete (left e)) = that)
  /\ alt that initial = ret initial
  /\ alt that pending = ret pending
  /\ (forall a, alt that (replete (right a)) = ret (replete (right a)))
  /\ (forall a, alt that (refresh (right a)) = ret (replete (right a)))
  /\ (forall (fa : DatumEither E A) (w : W),
        runState (alt that fa) w
        = if isFailure fa
          then runState that w
          else (match fa with Refresh (Right a) => replete (right a) | _ => fa end, w))
  /\ (forall (t fa : DatumEither E A) (n : nat),
        runState (alt (counting t) fa) n
        = if isFailure fa
          then (t, S n)
          else (match fa with Refresh (Right a) => replete (right a) | _ => fa end, n)).
Proof.
  repeat match goal with |- _ /\ _ => split end; try (intros; reflexivity).
  - intros fa w. destruct (isFailure fa) eqn:Hf.
    + now rewrite alt_failure.
    + now apply alt_not_failure.
  - intros t fa n. apply alt_counting.
Qed.

(** C3, as stated, fails at [Initial]: the thunk is not called and the
    receiver is returned, where the claim has one call and the thunk's
    result. *)
Lemma alt_initial_no_call :
  runState (alt (counting (success 1 : DatumEither string Z)) initial) 0%nat
  <> (success 1, 1%nat).
Proof.
  rewrite alt_counting. simpl. discriminate.
Qed.

(** ** Functor and monad laws *)

Section Laws.

Variables E A B C : Type.

Lemma map_id (fa : DatumEither E A) : map (fun a => a) fa = fa.
Proof. by_shape fa. Qed.

Lemma map_compose (f : A -> B) (g : B -> C) (fa : DatumEither E A) :
  map (fun a => g (f a)) fa = map g (map f fa).
Proof. by_shape fa. Qed.

Lemma chain_left_identity (f : A -> DatumEither E B) (a : A) :
  chain f (success a) = f a.
Proof. apply chain_replete_right. Qed.

Lemma chain_assoc (f : A -> DatumEither E B) (g : B -> DatumEither E C)
    (fa : DatumEither E A) :
  chain g (chain f fa) = chain (fun a => chain g (f a)) fa.
Proof. by_shape fa. Qed.

(** What [chain success] does: it is the identity except on a [Refresh],
    which it settles. *)
Lemma chain_success (fa : DatumEither E A) :
  chain success fa
  = match fa with
    | Refresh o => replete o
    | _ => fa
    end.
Proof. by_shape fa. Qed.

Lemma chain_right_identity (fa : DatumEither E A) :
  (forall o, fa <> refresh o) -> chain success fa = fa.
Proof.
  intros H. rewrite chain_success.
  destruct fa as [ | | o | o]; try reflexivity.
  destruct (H o). reflexivity.
Qed.

End Laws.

(** C4, as the composition has it: the functor laws, left identity and
    associativity hold on all six shapes; right identity holds on
    [Initial], [Pending] and the [Replete] values, and [chain success]
    turns a [Refresh o] into [Replete o], for a Failure as for a Success. *)
Theorem functor_monad_laws {E A B C} :
  (forall fa : DatumEither E A, map (fun a => a) fa = fa)
  /\ (forall (f : A -> B) (g : B -> C) (fa : DatumEither E A),
        map (fun a => g (f a)) fa = map g (map f fa))
  /\ (forall (f : A -> DatumEither E B) (a : A), chain f (success a) = f a)
  /\ (forall (f : A -> DatumEither E B) (g : B -> DatumEither E C)
             (fa : DatumEither E A),
        chain g (chain f fa) = chain (fun a => chain g (f a)) fa)
  /\ chain success (initial : DatumEither E A) = initial
  /\ chain success (pending : DatumEither E A) = pending
  /\ (forall e, chain success (refresh (left e) : DatumEither E A) = replete (left e))
  /\ (forall e, chain success (replete (left e) : DatumEither E A) = replete (left e))
  /\ (forall a, chain success (replete (right a) : DatumEither E A) = replete (right a))
  /\ (forall a, chain success (refresh (right a) : DatumEither E A) = replete (right a)).
Proof.
  split; [exact (@map_id E A) | ].
  split; [exact (@map_compose E A B C) | ].
  split; [exact (@chain_left_identity E A B) | ].
  split; [exact (@chain_assoc E A B C) | ].
  repeat split; intros; rewrite chain_success; reflexivity.
Qed.

(** C4, as stated, fails: right identity does not hold at
    [Refresh (Right 0)], which [chain success] settles. *)
Lemma chain_success_not_identity :
  chain success (refresh (right 0) : DatumEither string Z) <> refresh (right 0).
Proof.
  rewrite chain_success. discriminate.
Qed.


(** * Further properties of [DatumEither.ts] *)

(** ** The predicates, again *)

(** X1: a value carries an outcome exactly when it is a Success or a
    Failure, and then it is exactly one of the two. *)
Theorem isValued_success_xor_failure {E A} (fea : DatumEither E A) :
  isValued fea = xorb (isSuccess fea) (isFailure fea).
Proof.
  unfold isSuccess, isFailure.
  destruct fea as [ | | o | o]; simpl; try reflexivity; now destruct o.
Qed.

(** X2: the predicates agree with the eliminator: [refreshFold] calls
    [onSuccess] exactly on the values [isSuccess] accepts, [onFailure]
    exactly on those [isFailure] accepts, and a payload-free handler
    exactly on those [isValued] rejects. *)
Theorem predicates_by_refreshFold {E A} (fea : DatumEither E A) :
  isSuccess fea
  = refreshFold (fun _ => false) (fun _ => false) (fun _ _ => false) (fun _ _ => true) fea
  /\ isFailure fea
     = refreshFold (fun _ => false) (fun _ => false) (fun _ _ => true) (fun _ _ => false) fea
  /\ isValued fea
     = refreshFold (fun _ => false) (fun _ => false) (fun _ _ => true) (fun _ _ => true) fea.
Proof.
  destruct fea as [ | | [e|a] | [e|a] ]; repeat split.
Qed.

(** ** toRefresh, again *)

Lemma value_toRefresh {E A} (fea : DatumEither E A) :
  value (toRefresh fea) = value fea.
Proof. destruct fea; reflexivity. Qed.

Lemma isValued_by_value {A} (ma : Datum A) :
  isValued ma = match value ma with Some _ => true | None => false end.
Proof. destruct ma; reflexivity. Qed.

(** X3: [toRefresh] neither drops nor changes the outcome: the payload,
    and with it [isValued], [isSuccess] and [isFailure], are those of its
    argument. *)
Theorem toRefresh_preserves_outcome {E A} (fea : DatumEither E A) :
  value (toRefresh fea) = value fea
  /\ isValued (toRefresh fea) = isValued fea
  /\ isSuccess (toRefresh fea) = isSuccess fea
  /\ isFailure (toRefresh fea) = isFailure fea.
Proof.
  unfold isSuccess, isFailure.
  rewrite !isValued_by_value, !value_toRefresh. auto.
Qed.

(** X4: the values [toRefresh] leaves as they are are [Pending] and the
    [Refresh] values, and no others. *)
Theorem toRefresh_fixed_points {E A} (fea : DatumEither E A) :
  toRefresh fea = fea <-> fea = pending \/ exists o, fea = refresh o.
Proof.
  split.
  - destruct fea as [ | | o | o]; simpl; intros H.
    + discriminate H.
    + left; reflexivity.
    + right; exists o; reflexivity.
    + discriminate H.
  - intros [-> | [o ->]]; reflexivity.
Qed.

(** X5: [toRefresh] forgets the tag and nothing else: two values have the
    same image exactly when they carry the same payload, or both none. *)
Theorem toRefresh_eq_iff_value {E A} (s t : DatumEither E A) :
  toRefresh s = toRefresh t <-> value s = value t.
Proof.
  split.
  - intros H. rewrite <- (value_toRefresh s), <- (value_toRefresh t).
    now rewrite H.
  - destruct s as [ | | x | x], t as [ | | y | y]; simpl; intros H;
      first [ reflexivity | discriminate H | injection H as -> ]; reflexivity.
Qed.

(** X6: after [toRefresh] the eliminators see a request in flight:
    [refreshFold] never calls [onInitial] (it calls [onPending] in its
    place) and hands every outcome over with the flag [true]; [squash]
    passes [true] to each of its three handlers. *)
Theorem eliminators_after_toRefresh {E A B} (onInitial onPending : unit -> B)
    (onNone : option bool -> B)
    (onFailure : E -> option bool -> B) (onSuccess : A -> option bool -> B)
    (fea : DatumEither E A) :
  refreshFold onInitial onPending onFailure onSuccess (toRefresh fea)
  = refreshFold onPending onPending
      (fun e _ => onFailure e (Some true)) (fun a _ => onSuccess a (Some true)) fea
  /\ squash onNone onFailure onSuccess (toRefresh fea)
     = squash (fun _ => onNone (Some true))
         (fun e _ => onFailure e (Some true)) (fun a _ => onSuccess a (Some true)) fea.
Proof.
  destruct fea as [ | | [e|a] | [e|a] ]; split; reflexivity.
Qed.

(** ** The eliminators, again *)

(** X7: [refreshFold] loses nothing: handlers that rebuild the value from
    what they are given return the argument itself. *)
Theorem refreshFold_rebuild {E A} (fea : DatumEither E A) :
  refreshFold constInitial constPending rebuildFailure rebuildSuccess fea = fea.
Proof.
  destruct fea as [ | | o | o]; try reflexivity; destruct o; reflexivity.
Qed.

(** X8: neither does [squash]: the flag it passes to [onNone] is enough to
    tell [Initial] from [Pending]. *)
Theorem squash_rebuild {E A} (fea : DatumEither E A) :
  squash rebuildNone rebuildFailure rebuildSuccess fea = fea.
Proof.
  destruct fea as [ | | o | o]; try reflexivity; destruct o; reflexivity.
Qed.

(** X9: the optional flag is never left out: handlers that agree whenever
    the flag is given cannot be told apart by [refreshFold] or [squash]. *)
Theorem flag_never_absent {E A B}
    (onInitial onPending : unit -> B) (onNone onNone' : option bool -> B)
    (onFailure onFailure' : E -> option bool -> B)
    (onSuccess onSuccess' : A -> option bool -> B)
    (HN : forall r, onNone (Some r) = onNone' (Some r))
    (HF : forall e r, onFailure e (Some r) = onFailure' e (Some r))
    (HS : forall a r, onSuccess a (Some r) = onSuccess' a (Some r))
    (fea : DatumEither E A) :
  refreshFold onInitial onPending onFailure onSuccess fea
  = refreshFold onInitial onPending onFailure' onSuccess' fea
  /\ squash onNone onFailure onSuccess fea
     = squash onNone' onFailure' onSuccess' fea.
Proof.
  destruct fea as [ | | [e|a] | [e|a] ]; simpl; split;
    first [ reflexivity | apply HN | apply HF | apply HS ].
Qed.

(** Two families of handlers that differ on an absent flag only. *)
Lemma flag_never_absent_witness :
  refreshFold (fun _ => "none") (fun _ => "loading") (tagged "fail") (tagged "ok")
    (refresh (right "7") : DatumEither string string)
  = refreshFold (fun _ => "none") (fun _ => "loading")
      (fun e r => match r with Some _ => tagged "fail" e r | None => "?" end)
      (fun a r => match r with Some _ => tagged "ok" a r | None => "?" end)
      (refresh (right "7"))
  /\ squash taggedNone (tagged "fail") (tagged "ok")
       (refresh (right "7") : DatumEither string string)
     = squash (fun r => match r with Some _ => taggedNone r | None => "?" end)
         (fun e r => match r with Some _ => tagged "fail" e r | None => "?" end)
         (fun a r => match r with Some _ => tagged "ok" a r | None => "?" end)
         (refresh (right "7")).
Proof.
  apply (@flag_never_absent string string string
           (fun _ => "none") (fun _ => "loading")
           taggedNone (fun r => match r with Some _ => taggedNone r | None => "?" end)
           (tagged "fail")
           (fun e r => match r with Some _ => tagged "fail" e r | None => "?" end)
           (tagged "ok")
           (fun a r => match r with Some _ => tagged "ok" a r | None => "?" end));
    intros; reflexivity.
Defined.

(** ** The constructors *)

(** X11: from a nullable and back through [squash]: a present value and
    [null] come back as they were, [undefined] comes back as [null]:
    [fromNullable] does not keep the two apart. *)
Theorem toNullable_fromNullable {E A} (x : Nullable A) :
  toNullable (fromNullable x : DatumEither E A)
  = match x with
    | JsUndefined => JsNull
    | JsNull => JsNull
    | JsValue a => JsValue a
    end.
Proof.
  destruct x; reflexivity.
Qed.

(** X12: [fromEither] calls its supplier and settles on the outcome: the
    result is valued, a Success or a Failure as the outcome is a [Right]
    or a [Left], and the eliminators hand the payload over with the flag
    [false]. *)
Theorem fromEither_settled {E A B} (e : unit -> Either E A)
    (onInitial onPending : unit -> B)
    (onFailure : E -> option bool -> B) (onSuccess : A -> option bool -> B) :
  value (fromEither e) = Some (e tt)
  /\ isSuccess (fromEither e) = isRight (e tt)
  /\ isFailure (fromEither e) = isLeft (e tt)
  /\ toRefresh (fromEither e) = refresh (e tt)
  /\ refreshFold onInitial onPending onFailure onSuccess (fromEither e)
     = match e tt with
       | Left l => onFailure l (Some false)
       | Right a => onSuccess a (Some false)
       end.
Proof.
  unfold fromEither. destruct (e tt) as [l|a]; repeat split.
Qed.

(** X13: [fromOption] always settles: a present option is the Success of
    its value, an absent one the Failure of [onNone ()]; unlike
    [fromNullable], it never answers [Initial]. *)
Theorem fromOption_settled {E A} (onNone : unit -> E) :
  (forall a : A, fromOption onNone (Some a) = success a)
  /\ fromOption onNone None = (failure (onNone tt) : DatumEither E A)
  /\ (forall o : option A, isValued (fromOption onNone o) = true)
  /\ (forall o : option A, toRefresh (fromOption onNone o)
                           = refresh (Either.fromOption onNone o)).
Proof.
  repeat split.
Qed.
